(** * pysvcmetrics: the statsd client and the metrics facade

    A shallow embedding of [statsdclient.py] and [metrics.py], and the
    properties of the formatter, the sampler, the sender and the typed
    operations.

    Conventions of the embedding:
    - a Python [str] is the byte string of its UTF-8 encoding, so that
      [.encode('utf-8')] yields the bytes of the string; concatenation,
      equality and emptiness are those of the text. Text that has no UTF-8
      encoding (a lone surrogate code point) is not represented;
    - a Python [float] is a binary64 primitive float; comparisons are the
      IEEE 754 ones, read through the Standard Library's specification
      of binary64 ([Prim2SF], [SFcompare]), and a comparison of a float with
      an [int] is exact, as in CPython;
    - a [dict] with [str] keys is an association list in insertion order;
    - [random()], [time.time()], the UDP socket, the [logging] module and the
      module global [metrics._client] live in a [World] that every effectful
      function threads; an exception leaves the effects done so far;
    - [sendto] records the datagram it is given: what the operating system
      and the network then do with it (an unresolvable host, an oversized
      payload, a lost packet) is not part of the program;
    - an optional argument is an [option], [None] when the caller omits it,
      and each function resolves its own defaults. *)

From Stdlib Require Import ZArith Lia Bool List String Ascii.
From Stdlib Require Import Strings.Byte.
From Stdlib Require Import DecimalString.
From Stdlib Require Import Floats.PrimFloat Floats.SpecFloat Floats.FloatOps.
Import ListNotations.

Open Scope list_scope.
Open Scope string_scope.

Set Warnings "-register-all".

(** ** Python values *)

Definition pystr := string.

(** Numbers: [int] and [float]. *)
Inductive pynum : Type :=
| PyInt (z : Z)
| PyFloat (f : float).

(** What a metric value can be: a number or a string. *)
Inductive pyval : Type :=
| VNum (n : pynum)
| VStr (s : pystr).

(** The objects a caller can pass as the [keys] / [stats] argument. *)
Inductive pyobj : Type :=
| PyStr (s : pystr)
| PyNum (n : pynum)
| PyNone
| PyList (l : list pyobj)
| PyTuple (l : list pyobj)
| PySet (l : list pyobj).

Inductive exn : Type :=
| TypeError
| Exception (name : pystr).

Inductive result (A : Type) : Type :=
| Ok (a : A)
| Raise (e : exn).

Arguments Ok {A} a.
Arguments Raise {A} e.

(** [str(f)] of a float is Python's shortest round-trip [repr]; it is a
    built-in of the language and not code of this repository, so the
    development is parametric in it. *)
Class FloatStr := float_str : float -> pystr.

(** [str(z)] of an [int]: decimal digits, with a leading minus sign. *)
Definition int_str (z : Z) : pystr := NilZero.string_of_int (Z.to_int z).

Definition num_str {FS : FloatStr} (n : pynum) : pystr :=
  match n with
  | PyInt z => int_str z
  | PyFloat f => float_str f
  end.

(** ["{0}".format(v)] *)
Definition py_str {FS : FloatStr} (v : pyval) : pystr :=
  match v with
  | VNum n => num_str n
  | VStr s => s
  end.

(** Truth value of a [str]: non-empty. *)
Definition str_truthy (s : pystr) : bool :=
  match s with
  | EmptyString => false
  | String _ _ => true
  end.

(** [prefix + key] for a [str] prefix: concatenation when [key] is a [str],
    [TypeError] otherwise. *)
Definition str_add (prefix : pystr) (key : pyobj) : result pystr :=
  match key with
  | PyStr s => Ok (prefix ++ s)
  | _ => Raise TypeError
  end.

(** [isinstance(o, (list, tuple))] *)
Definition isinstance_list_tuple (o : pyobj) : bool :=
  match o with
  | PyList _ | PyTuple _ => true
  | _ => false
  end.

(** [s.encode('utf-8')] *)
Definition encode_utf8 (s : pystr) : list byte := list_byte_of_string s.

(** An omitted argument takes its default. *)
Definition default {A : Type} (d : A) (o : option A) : A :=
  match o with
  | Some a => a
  | None => d
  end.

(** ** Comparison of numbers *)

(** The signed integer mantissa of a finite binary64 value. *)
Definition signed (s : bool) (m : positive) : Z :=
  if s then Z.neg m else Z.pos m.

(** Exact comparison of a float with an integer: [m * 2^e ? z]. *)
Definition SFcompare_Z (f : spec_float) (z : Z) : option comparison :=
  match f with
  | S754_nan => None
  | S754_infinity s => Some (if s then Lt else Gt)
  | S754_zero _ => Some (0 ?= z)%Z
  | S754_finite s m e =>
      if (0 <=? e)%Z then Some (signed s m * 2 ^ e ?= z)%Z
      else Some (signed s m ?= z * 2 ^ (- e))%Z
  end.

(** [None] when a NaN is involved: every ordered comparison is then false. *)
Definition num_compare (a b : pynum) : option comparison :=
  match a, b with
  | PyInt x, PyInt y => Some (x ?= y)%Z
  | PyFloat x, PyFloat y => SFcompare (Prim2SF x) (Prim2SF y)
  | PyFloat x, PyInt y => SFcompare_Z (Prim2SF x) y
  | PyInt x, PyFloat y => option_map CompOpp (SFcompare_Z (Prim2SF y) x)
  end.

(** [a >= b] *)
Definition py_ge (a b : pynum) : bool :=
  match num_compare a b with
  | Some Gt | Some Eq => true
  | _ => false
  end.

(** [a < b] *)
Definition py_lt (a b : pynum) : bool :=
  match num_compare a b with
  | Some Lt => true
  | _ => false
  end.

(** [a <= b] *)
Definition py_le (a b : pynum) : bool :=
  match num_compare a b with
  | Some Lt | Some Eq => true
  | _ => false
  end.

(** ** Dictionaries with string keys, in insertion order *)

Definition dict := list (pystr * pystr).

(** [d[k] = v]: replaces the value of an existing entry in place, appends a
    new entry otherwise. *)
Fixpoint dict_set (k v : pystr) (d : dict) : dict :=
  match d with
  | [] => [(k, v)]
  | (k', v') :: d' =>
      if String.eqb k' k then (k', v) :: d' else (k', v') :: dict_set k v d'
  end.

(** [d.get(k)] *)
Fixpoint dict_get (k : pystr) (d : dict) : option pystr :=
  match d with
  | [] => None
  | (k', v') :: d' => if String.eqb k' k then Some v' else dict_get k d'
  end.

Definition dict_keys (d : dict) : list pystr := map fst d.

(** [d.items()] *)
Definition dict_items (d : dict) : list (pystr * pystr) := d.

(** A dictionary holds each key once. *)
Definition dict_wf (d : dict) : Prop := NoDup (dict_keys d).

(** ** The world outside the program *)

(** A UDP destination [(host, port)]. *)
Definition address := (pystr * Z)%type.

Record datagram : Type := Datagram {
  payload : list byte;
  dest : address
}.

(** The attributes of a [StatsdClient] instance. *)
Record statsd_client : Type := Build_client {
  addr : address;
  prefix : pystr
}.

(** What the module global [metrics._client] can hold. *)
Inductive client_obj : Type :=
| NullClientObj
| StatsdClientObj (self : statsd_client).

Record World : Type := Build_World {
  (** the values [random()] returns, and how many were drawn *)
  rand_src : nat -> float;
  rand_pos : nat;
  (** the values [time.time()] returns, and how many were read *)
  clock_src : nat -> float;
  clock_pos : nat;
  (** UDP sockets created *)
  sockets : nat;
  (** datagrams handed to [sendto], oldest first *)
  wire : list datagram;
  (** records passed to [logging]: level and message *)
  log : list (pystr * pystr);
  (** [metrics._client] *)
  _client : client_obj
}.

Definition drew (w : World) : World :=
  Build_World (rand_src w) (S (rand_pos w)) (clock_src w) (clock_pos w)
    (sockets w) (wire w) (log w) (_client w).

Definition ticked (w : World) : World :=
  Build_World (rand_src w) (rand_pos w) (clock_src w) (S (clock_pos w))
    (sockets w) (wire w) (log w) (_client w).

Definition opened (w : World) : World :=
  Build_World (rand_src w) (rand_pos w) (clock_src w) (clock_pos w)
    (S (sockets w)) (wire w) (log w) (_client w).

Definition sent (ds : list datagram) (w : World) : World :=
  Build_World (rand_src w) (rand_pos w) (clock_src w) (clock_pos w)
    (sockets w) (wire w ++ ds)%list (log w) (_client w).

Definition logged (r : pystr * pystr) (w : World) : World :=
  Build_World (rand_src w) (rand_pos w) (clock_src w) (clock_pos w)
    (sockets w) (wire w) (log w ++ [r])%list (_client w).

Definition with_client (c : client_obj) (w : World) : World :=
  Build_World (rand_src w) (rand_pos w) (clock_src w) (clock_pos w)
    (sockets w) (wire w) (log w) c.

(** ** Effectful computations: state and exceptions *)

Definition M (A : Type) : Type := World -> result A * World.

Definition ret {A : Type} (a : A) : M A := fun w => (Ok a, w).

Definition raise {A : Type} (e : exn) : M A := fun w => (Raise e, w).

Definition bind {A B : Type} (m : M A) (k : A -> M B) : M B :=
  fun w =>
    match m w with
    | (Ok a, w') => k a w'
    | (Raise e, w') => (Raise e, w')
    end.

(** A pure computation that may raise. *)
Definition lift {A : Type} (r : result A) : M A := fun w => (r, w).

Declare Scope py_scope.
Delimit Scope py_scope with py.
Notation "x <- c ;; k" := (bind c (fun x => k))
  (at level 61, c at next level, right associativity) : py_scope.
Notation "' p <- c ;; k" := (bind c (fun x => let 'p := x in k))
  (at level 61, p pattern, c at next level, right associativity) : py_scope.
Notation "c ;; k" := (bind c (fun _ => k))
  (at level 61, right associativity) : py_scope.
Open Scope py_scope.

(** [random.random()] *)
Definition random : M float :=
  fun w => (Ok (rand_src w (rand_pos w)), drew w).

(** [time.time()] *)
Definition time_time : M float :=
  fun w => (Ok (clock_src w (clock_pos w)), ticked w).

(** [socket(AF_INET, SOCK_DGRAM)] *)
Definition socket : M unit :=
  fun w => (Ok tt, opened w).

(** [udp_sock.sendto(data, addr)] *)
Definition sendto (data : list byte) (a : address) : M unit :=
  fun w => (Ok tt, sent [Datagram data a] w).

(** [logging.info(msg)] *)
Definition logging_info (msg : pystr) : M unit :=
  fun w => (Ok tt, logged ("INFO", msg) w).

(** * statsdclient.py *)

Module statsdclient.

Section functions.
Context {A Args : Type}.

(** Time execution of function. Returns (res, seconds). *)
Definition timeit (func : Args -> M A) (args : Args) : M (A * float) :=
  start_time <- time_time ;;
  res <- func args ;;
  now <- time_time ;;
  let timing := PrimFloat.sub now start_time in
  ret (res, timing).

End functions.

Module StatsdClient.

Definition SC_TIMING : pystr := "ms".
Definition SC_COUNT : pystr := "c".
Definition SC_GAUGE : pystr := "g".
Definition SC_SET : pystr := "s".

Definition __init__ (host : option pystr) (port : option Z)
  (prefix : option pystr) : statsd_client :=
  let host := default "localhost" host in
  let port := default 8125%Z port in
  let prefix := default EmptyString prefix in
  Build_client (host, port)
    (if str_truthy prefix then prefix ++ "." else EmptyString).

Section methods.
Context {FS : FloatStr}.

(** [for key in keys: data[prefix + key] = value] *)
Fixpoint format_loop (prefix value : pystr) (keys : list pyobj) (data : dict)
  : result dict :=
  match keys with
  | [] => Ok data
  | key :: keys' =>
      match str_add prefix key with
      | Ok k => format_loop prefix value keys' (dict_set k value data)
      | Raise e => Raise e
      end
  end.

(** General format function. *)
Definition format (keys : pyobj) (value : pyval) (_type : pystr)
  (prefix : pystr) : result dict :=
  let data : dict := [] in
  let value := py_str value ++ "|" ++ _type in
  (* if not isinstance(keys, (list, tuple)): keys = [keys] *)
  let keys :=
    match keys with
    | PyList l | PyTuple l => l
    | _ => [keys]
    end in
  format_loop prefix value keys data.

(** [for stat, value in items: sampled_data[stat] = "{0}|@{1}".format(...)] *)
Fixpoint sample_loop (items : list (pystr * pystr)) (sample_rate : pynum)
  (sampled_data : dict) : dict :=
  match items with
  | [] => sampled_data
  | (stat, value) :: items' =>
      sample_loop items' sample_rate
        (dict_set stat (value ++ "|@" ++ num_str sample_rate) sampled_data)
  end.

(** Sample data dict *)
Definition sample (data : dict) (sample_rate : pynum) : M dict :=
  if py_ge sample_rate (PyInt 1) then ret data
  else if py_lt sample_rate (PyInt 1) then
    r <- random ;;
    if py_le (PyFloat r) sample_rate then
      ret (sample_loop (dict_items data) sample_rate [])
    else ret []
  else ret [].

(** [for item in items: udp_sock.sendto(":".join(item).encode('utf-8'), addr)] *)
Fixpoint send_loop (items : list (pystr * pystr)) (addr : address) : M unit :=
  match items with
  | [] => ret tt
  | (k, v) :: items' =>
      sendto (encode_utf8 (k ++ ":" ++ v)) addr ;;
      send_loop items' addr
  end.

(** Sends key/value pairs via UDP. *)
Definition send (_dict : dict) (addr : address) : M unit :=
  socket ;;
  send_loop (dict_items _dict) addr.

(** Pipeline function that formats data, samples it and passes to send() *)
Definition update_stats (self : statsd_client) (stats : pyobj) (value : pyval)
  (_type : pystr) (sample_rate : option pynum) : M unit :=
  let sample_rate := default (PyInt 1) sample_rate in
  stats <- lift (format stats value _type (prefix self)) ;;
  sampled <- sample stats sample_rate ;;
  send sampled (addr self).

(** Log timing information *)
Definition timing (self : statsd_client) (stats : pyobj) (value : pyval)
  : M unit :=
  update_stats self stats value SC_TIMING None.

(** Log gauges *)
Definition gauge (self : statsd_client) (stats : pyobj) (value : pyval)
  : M unit :=
  update_stats self stats value SC_GAUGE None.

(** Log set *)
Definition set (self : statsd_client) (stats : pyobj) (value : pyval)
  : M unit :=
  update_stats self stats value SC_SET None.

(** Updates one or more stats counters by arbitrary value *)
Definition count (self : statsd_client) (stats : pyobj) (value : pyval)
  (sample_rate : option pynum) : M unit :=
  let sample_rate := default (PyInt 1) sample_rate in
  update_stats self stats value SC_COUNT (Some sample_rate).

(** Increments one or more stats counters *)
Definition increment (self : statsd_client) (stats : pyobj)
  (sample_rate : option pynum) : M unit :=
  let sample_rate := default (PyInt 1) sample_rate in
  count self stats (VNum (PyInt 1)) (Some sample_rate).

(** Decrements one or more stats counters *)
Definition decrement (self : statsd_client) (stats : pyobj)
  (sample_rate : option pynum) : M unit :=
  let sample_rate := default (PyInt 1) sample_rate in
  count self stats (VNum (PyInt (-1))) (Some sample_rate).

(** Times given function and log metric in ms for duration of execution. *)
Definition timeit {A Args : Type} (self : statsd_client) (metric : pyobj)
  (func : Args -> M A) (args : Args) : M A :=
  '(res, seconds) <- statsdclient.timeit func args ;;
  timing self metric (VNum (PyFloat (PrimFloat.mul seconds 1000%float))) ;;
  ret res.

End methods.

End StatsdClient.

End statsdclient.

(** ** Functions and objects *)

(** A function object: its [__name__] and what calling it does. *)
Record pyfunc (Args A : Type) : Type := Build_pyfunc {
  __name__ : pystr;
  call : Args -> M A
}.

Arguments Build_pyfunc {Args A} __name__ call.
Arguments __name__ {Args A} p.
Arguments call {Args A} p args.

(** An object, as far as its callable attributes go: attribute name and
    what it is bound to, in the order of first assignment. *)
Definition pyobject (Args A : Type) : Type := list (pystr * pyfunc Args A).

Section attributes.
Context {Args A : Type}.

(** [getattr(obj, name)]; [None] stands for [AttributeError]. *)
Fixpoint getattr (obj : pyobject Args A) (name : pystr)
  : option (pyfunc Args A) :=
  match obj with
  | [] => None
  | (n, f) :: obj' => if String.eqb n name then Some f else getattr obj' name
  end.

(** [setattr(obj, name, value)] *)
Fixpoint setattr (obj : pyobject Args A) (name : pystr) (value : pyfunc Args A)
  : pyobject Args A :=
  match obj with
  | [] => [(name, value)]
  | (n, f) :: obj' =>
      if String.eqb n name then (n, value) :: obj'
      else (n, f) :: setattr obj' name value
  end.

End attributes.

(** Truth value of an argument that is [None] or a [str]. *)
Definition opt_truthy (o : option pystr) : bool :=
  match o with
  | Some s => str_truthy s
  | None => false
  end.

(** * metrics.py *)

Module metrics.

Import statsdclient.

Definition DEFAULT_HOST : pystr := "localhost".
Definition DEFAULT_PORT : Z := 8125.

(** An instrumentation 'null' client *)
Module NullClient.

(** Dummy timeit *)
Definition timeit {A Args : Type} (_metric : pyobj) (func : Args -> M A)
  (args : Args) : M A :=
  func args.

(** Dummy count *)
Definition count (metric : pyobj) (value : pyval) (sample_rate : pynum)
  : M unit :=
  ret tt.

(** Dummy timing *)
Definition timing (metric : pyobj) (value : pyval) : M unit := ret tt.

(** Dummy gauge *)
Definition gauge (metric : pyobj) (value : pyval) : M unit := ret tt.

End NullClient.

(** Reading and assigning the module global [_client]. *)
Definition get_client : M client_obj := fun w => (Ok (_client w), w).

Definition set_client (c : client_obj) : M unit :=
  fun w => (Ok tt, with_client c w).

(** The state of the world when the module has just been imported:
    [_client = NullClient()]. *)
Definition imported (rand clock : nat -> float) : World :=
  Build_World rand 0 clock 0 0 [] [] NullClientObj.

Section functions.
Context {FS : FloatStr}.

Definition configure (host : option pystr) (port : option Z)
  (prefix : option pystr) : M unit :=
  let host := default DEFAULT_HOST host in
  let port := default DEFAULT_PORT port in
  let prefix := default EmptyString prefix in
  logging_info
    ("Reconfiguring metrics: " ++ host ++ ":" ++ int_str port ++ "/" ++ prefix) ;;
  set_client
    (StatsdClientObj (StatsdClient.__init__ (Some host) (Some port) (Some prefix))).

Definition timing (metric : pyobj) (value : pyval) : M unit :=
  c <- get_client ;;
  match c with
  | NullClientObj => NullClient.timing metric value
  | StatsdClientObj self => StatsdClient.timing self metric value
  end.

Definition gauge (metric : pyobj) (value : pyval) : M unit :=
  c <- get_client ;;
  match c with
  | NullClientObj => NullClient.gauge metric value
  | StatsdClientObj self => StatsdClient.gauge self metric value
  end.

Definition count (metric : pyobj) (value : option pyval)
  (sample_rate : option pynum) : M unit :=
  let value := default (VNum (PyInt 1)) value in
  let sample_rate := default (PyInt 1) sample_rate in
  c <- get_client ;;
  match c with
  | NullClientObj => NullClient.count metric value sample_rate
  | StatsdClientObj self =>
      StatsdClient.count self metric value (Some sample_rate)
  end.

Definition timeit {A Args : Type} (metric : pyobj) (func : Args -> M A)
  (args : Args) : M A :=
  c <- get_client ;;
  match c with
  | NullClientObj => NullClient.timeit metric func args
  | StatsdClientObj self => StatsdClient.timeit self metric func args
  end.

(** Reset client to None *)
Definition resetclient : M unit := set_client NullClientObj.

(** Decorator to time execution of function: [timed(prefix)(func)]. The
    function it returns is the inner [wrapped]. *)
Definition timed {A Args : Type} (prefix : option pystr)
  (func : pyfunc Args A) : pyfunc Args A :=
  let metricname := __name__ func in
  let metricname :=
    if opt_truthy prefix
    then (default EmptyString prefix ++ ".") ++ metricname
    else metricname in
  Build_pyfunc "wrapped"
    (fun args => timeit (PyStr metricname) (call func) args).

(** [for method in methods: ...]: the loop of [time_methods]. The object is
    changed in place, so it is returned beside the outcome. *)
Fixpoint time_methods_loop {A Args : Type} (obj : pyobject Args A)
  (methods : list pystr) (prefix : pystr) : result unit * pyobject Args A :=
  match methods with
  | [] => (Ok tt, obj)
  | method :: methods' =>
      match getattr obj method with
      | None => (Raise (Exception "AttributeError"), obj)
      | Some current_method =>
          let new_method := timed (Some prefix) current_method in
          time_methods_loop (setattr obj method new_method) methods' prefix
      end
  end.

(** Patch obj so calls to given methods are timed *)
Definition time_methods {A Args : Type} (obj : pyobject Args A)
  (methods : list pystr) (prefix : option pystr)
  : result unit * pyobject Args A :=
  let prefix :=
    if opt_truthy prefix then default EmptyString prefix ++ "."
    else EmptyString in
  time_methods_loop obj methods prefix.

End functions.

End metrics.

Import statsdclient.

(** * Vocabulary of the properties *)

(** The datagram that carries one pair. *)
Definition datagram_of (a : address) (item : pystr * pystr) : datagram :=
  Datagram (encode_utf8 (fst item ++ ":" ++ snd item)) a.

(** What the spec says of the result for a sequence of string keys: starting
    from the empty mapping, each key in input order is assigned, under its
    prefixed name, the one value. *)
Definition assign_all (prefix v : pystr) (ks : list pystr) (d : dict) : dict :=
  fold_left (fun acc k => dict_set (prefix ++ k) v acc) ks d.

Section rate_suffix.
Context {FS : FloatStr}.

(** A pair with the rate appended to its value. *)
Definition with_rate (sample_rate : pynum) (item : pystr * pystr)
  : pystr * pystr :=
  (fst item, snd item ++ "|@" ++ num_str sample_rate).

End rate_suffix.

(** The sign of a binary64 value that is not a NaN. *)
Definition sf_positive (f : spec_float) : Prop :=
  match f with
  | S754_infinity false | S754_finite false _ _ => True
  | _ => False
  end.

Definition sf_nonpositive (f : spec_float) : Prop :=
  match f with
  | S754_zero _ | S754_infinity true | S754_finite true _ _ => True
  | _ => False
  end.

(** ** Inputs for the examples *)

(** Python's [repr] at the floats the examples use. *)
Definition repr_examples : FloatStr :=
  fun f =>
    if PrimFloat.eqb f 0.5 then "0.5"
    else if PrimFloat.eqb f 1.5 then "1.5"
    else if PrimFloat.eqb f 1250 then "1250.0"
    else "0.0".

(** A rate of [0] with a draw of [0.0]: the doctest's input,
    [sample({"example.sample3": "3"}, 0)], in a world whose next [random()]
    is [0.0]. The test [random() <= sample_rate] holds, and the pair is
    returned with ["|@0"] appended. *)
Definition zero_draws : World :=
  metrics.imported (fun _ => 0%float) (fun _ => 0%float).

(** A world whose every [random()] is [0.25], and whose clock reads [1.25]
    first and [2.5] from then on. *)
Definition quarter_draws : World :=
  metrics.imported (fun _ => 0.25%float)
    (fun n => match n with O => 1.25%float | S _ => 2.5%float end).

(** ** Vocabulary of the further properties *)

(** Whether an object is a [str]. *)
Definition is_str (o : pyobj) : bool :=
  match o with
  | PyStr _ => true
  | _ => false
  end.

(** The keys a [keys] argument stands for: the elements of a list or tuple,
    the argument itself otherwise. *)
Definition key_list (keys : pyobj) : list pyobj :=
  match keys with
  | PyList l | PyTuple l => l
  | _ => [keys]
  end.

(** The metric name [timed(prefix)] gives a function called [name]. *)
Definition metric_name (prefix : option pystr) (name : pystr) : pystr :=
  if opt_truthy prefix then (default EmptyString prefix ++ ".") ++ name
  else name.

(** The key prefix a client built with [prefix] uses. *)
Definition key_prefix (prefix : option pystr) : pystr :=
  if opt_truthy prefix then default EmptyString prefix ++ "."
  else EmptyString.

(** The record [configure] passes to [logging.info]. *)
Definition configure_record (host : option pystr) (port : option Z)
  (prefix : option pystr) : pystr * pystr :=
  ("INFO",
   "Reconfiguring metrics: " ++ default "localhost" host ++ ":"
   ++ int_str (default 8125%Z port) ++ "/" ++ default EmptyString prefix).

Section timing_vocabulary.
Context {FS : FloatStr}.

(** The datagram a timed call sends: the elapsed seconds, times [1000.0],
    under the client's prefix and the metric name. *)
Definition timing_datagram (self : statsd_client) (metric : pystr)
  (start_time now : float) : datagram :=
  datagram_of (addr self)
    (prefix self ++ metric,
     float_str (PrimFloat.mul (PrimFloat.sub now start_time) 1000%float)
     ++ "|ms").

End timing_vocabulary.

(** The metric name a method patched by [time_methods] is timed under:
    [time_methods] appends a dot to a non-empty prefix and [timed] appends
    one more. *)
Definition patched_metric_name (prefix : option pystr) (name : pystr)
  : pystr :=
  if opt_truthy prefix
  then ((default EmptyString prefix ++ ".") ++ ".") ++ name
  else name.

(** ** More inputs for the examples *)

(** A function named [f] that adds one, for the examples. *)
Definition add_one : pyfunc nat nat := Build_pyfunc "f" (fun x => ret (x + 1)).

(** The world of a fresh import after [configure(prefix='svc')]. *)
Definition svc_world : World :=
  snd (metrics.configure None None (Some "svc") quarter_draws).

(** The object of the doctest of [time_methods]: [m1] returns ['ok'], [m2]
    returns its argument. *)
Definition example_object : pyobject (list pyobj) pyobj :=
  [("m1", Build_pyfunc "m1" (fun _ => ret (PyStr "ok")));
   ("m2", Build_pyfunc "m2" (fun args => ret (hd PyNone args)))].

(** * Properties *)

(** ** The world *)

Lemma sent_nil (w : World) : sent [] w = w.
Proof.
  destruct w; unfold sent; simpl. now rewrite app_nil_r.
Qed.

Lemma sent_sent (ds1 ds2 : list datagram) (w : World) :
  sent ds2 (sent ds1 w) = sent (ds1 ++ ds2)%list w.
Proof.
  unfold sent; simpl. now rewrite app_assoc.
Qed.

Lemma wire_sent (ds : list datagram) (w : World) :
  wire (sent ds w) = (wire w ++ ds)%list.
Proof. reflexivity. Qed.

(** ** Numbers *)

Lemma py_ge_int (x y : Z) : py_ge (PyInt x) (PyInt y) = true <-> (y <= x)%Z.
Proof.
  unfold py_ge, num_compare.
  destruct (Z.compare_spec x y); split; intros; try lia; try reflexivity;
    discriminate.
Qed.

Lemma py_lt_int (x y : Z) : py_lt (PyInt x) (PyInt y) = true <-> (x < y)%Z.
Proof.
  unfold py_lt, num_compare.
  destruct (Z.compare_spec x y); split; intros; try lia; try reflexivity;
    discriminate.
Qed.

Lemma py_le_int (x y : Z) : py_le (PyInt x) (PyInt y) = true <-> (x <= y)%Z.
Proof.
  unfold py_le, num_compare.
  destruct (Z.compare_spec x y); split; intros; try lia; try reflexivity;
    discriminate.
Qed.

(** [a < b] and [a >= b] never both hold; with a NaN neither does. *)
Lemma py_lt_not_ge (a b : pynum) : py_lt a b = true -> py_ge a b = false.
Proof.
  unfold py_lt, py_ge.
  destruct (num_compare a b) as [[ | | ] | ]; intros; try discriminate;
    reflexivity.
Qed.

(** ** Dictionaries *)

Lemma dict_get_set_eq (k v : pystr) (d : dict) :
  dict_get k (dict_set k v d) = Some v.
Proof.
  induction d as [ | [k' v'] d IH]; simpl.
  - now rewrite String.eqb_refl.
  - destruct (String.eqb k' k) eqn:E; simpl; rewrite E; auto.
Qed.

Lemma dict_get_set_ne (k q v : pystr) (d : dict) :
  k <> q -> dict_get q (dict_set k v d) = dict_get q d.
Proof.
  intros Hne.
  induction d as [ | [k' v'] d IH]; simpl.
  - destruct (String.eqb_spec k q); congruence.
  - destruct (String.eqb_spec k' k) as [-> | Hk]; simpl.
    + destruct (String.eqb_spec k q); congruence.
    + destruct (String.eqb_spec k' q); auto.
Qed.

Lemma dict_keys_set (k v q : pystr) (d : dict) :
  In q (dict_keys (dict_set k v d)) <-> q = k \/ In q (dict_keys d).
Proof.
  unfold dict_keys.
  induction d as [ | [k' v'] d IH]; simpl.
  - intuition.
  - destruct (String.eqb_spec k' k) as [-> | Hk]; simpl.
    + intuition.
    + rewrite IH. intuition.
Qed.

(** Assigning to a key that is absent appends the entry. *)
Lemma dict_set_fresh (k v : pystr) (d : dict) :
  ~ In k (dict_keys d) -> dict_set k v d = (d ++ [(k, v)])%list.
Proof.
  unfold dict_keys.
  induction d as [ | [k' v'] d IH]; simpl; intros Hnot.
  - reflexivity.
  - destruct (String.eqb_spec k' k) as [-> | Hk].
    + exfalso. auto.
    + rewrite IH; auto.
Qed.

Lemma dict_set_wf (k v : pystr) (d : dict) :
  dict_wf d -> dict_wf (dict_set k v d).
Proof.
  unfold dict_wf, dict_keys.
  induction d as [ | [k' v'] d IH]; simpl; intros Hwf.
  - constructor; [intros [] | constructor].
  - inversion Hwf as [ | ? ? Hnot Hrest]; subst.
    destruct (String.eqb_spec k' k) as [-> | Hk]; simpl.
    + constructor; assumption.
    + constructor; auto.
      intros Hin. apply (dict_keys_set k v k' d) in Hin.
      destruct Hin as [-> | Hin]; [congruence | auto].
Qed.

(** ** The sender *)

Lemma send_loop_sends (items : list (pystr * pystr)) (a : address) (w : World) :
  StatsdClient.send_loop items a w = (Ok tt, sent (map (datagram_of a) items) w).
Proof.
  revert w.
  induction items as [ | [k v] items IH]; intros w; simpl.
  - unfold ret. now rewrite sent_nil.
  - unfold bind, sendto. rewrite IH, sent_sent. reflexivity.
Qed.

(** C6: [send] opens one socket and hands one datagram per pair to it, in the
    order of the mapping, each with payload the UTF-8 bytes of
    ["{key}:{value}"] and the given destination; nothing is batched, so the
    wire grows by as many datagrams as there are pairs. *)
Theorem send_one_datagram_per_pair (d : dict) (a : address) (w : World) :
  StatsdClient.send d a w
  = (Ok tt, sent (map (datagram_of a) d) (opened w))
  /\ wire (snd (StatsdClient.send d a w))
     = (wire w ++ map (datagram_of a) d)%list
  /\ List.length (wire (snd (StatsdClient.send d a w)))
     = List.length (wire w) + List.length d.
Proof.
  assert (E : StatsdClient.send d a w
              = (Ok tt, sent (map (datagram_of a) d) (opened w))).
  { unfold StatsdClient.send, bind, socket, dict_items.
    apply send_loop_sends. }
  rewrite E. simpl. repeat split.
  now rewrite List.length_app, List.length_map.
Qed.

(** ** The pipeline, end to end *)

Section pipeline.
Context {FS : FloatStr}.

(** C1: a client built with prefix ["app"], for any host and port (given or
    defaulted), on [gauge("mem", 512)] puts exactly one datagram on the wire,
    addressed to the client's destination, with payload the UTF-8 bytes of
    ["app.mem:512|g"]; and the constructor turns any non-empty prefix [p]
    into [p + "."]. *)
Theorem gauge_end_to_end (host : option pystr) (port : option Z) (w : World) :
  let client := StatsdClient.__init__ host port (Some "app") in
  StatsdClient.gauge client (PyStr "mem") (VNum (PyInt 512)) w
  = (Ok tt,
     sent [Datagram (encode_utf8 "app.mem:512|g") (addr client)] (opened w))
  /\ wire (snd (StatsdClient.gauge client (PyStr "mem") (VNum (PyInt 512)) w))
     = (wire w ++ [Datagram (encode_utf8 "app.mem:512|g")
                     (default "localhost" host, default 8125%Z port)])%list
  /\ (forall (c : ascii) (p : pystr),
        prefix (StatsdClient.__init__ host port (Some (String c p)))
        = String c p ++ ".").
Proof.
  destruct host, port; repeat split; reflexivity.
Qed.

(** C7: [increment] is [count] with value [1] and [decrement] is [count] with
    value [-1], whether the sample rate is given or left to its default. *)
Theorem increment_decrement_are_count (self : statsd_client) (stats : pyobj)
  (sample_rate : option pynum) :
  StatsdClient.increment self stats sample_rate
  = StatsdClient.count self stats (VNum (PyInt 1)) sample_rate
  /\ StatsdClient.decrement self stats sample_rate
     = StatsdClient.count self stats (VNum (PyInt (-1))) sample_rate
  /\ StatsdClient.increment self stats None
     = StatsdClient.count self stats (VNum (PyInt 1)) (Some (PyInt 1))
  /\ StatsdClient.decrement self stats None
     = StatsdClient.count self stats (VNum (PyInt (-1))) (Some (PyInt 1)).
Proof.
  destruct sample_rate; repeat split; reflexivity.
Qed.

End pipeline.

(** ** The sampler *)

Section sampler.
Context {FS : FloatStr}.

(** C5: with a rate of at least [1] the sampler returns the very mapping it
    was given (same keys, same values, nothing appended) and draws no random
    value. *)
Theorem sample_rate_ge_1_identity (data : dict) (sample_rate : pynum)
  (w : World) :
  py_ge sample_rate (PyInt 1) = true ->
  StatsdClient.sample data sample_rate w = (Ok data, w).
Proof.
  intros Hge. unfold StatsdClient.sample. rewrite Hge. reflexivity.
Qed.

End sampler.

(** ** The formatter *)

Lemma assign_all_snoc (prefix v : pystr) (ks : list pystr) (k : pystr)
  (d : dict) :
  assign_all prefix v (ks ++ [k])%list d
  = dict_set (prefix ++ k) v (assign_all prefix v ks d).
Proof.
  unfold assign_all. now rewrite fold_left_app.
Qed.

Lemma assign_all_wf (prefix v : pystr) (ks : list pystr) (d : dict) :
  dict_wf d -> dict_wf (assign_all prefix v ks d).
Proof.
  revert d. induction ks as [ | k ks IH]; intros d Hwf; simpl; auto.
  apply IH. now apply dict_set_wf.
Qed.

Lemma assign_all_keys (prefix v : pystr) (ks : list pystr) (d : dict)
  (q : pystr) :
  In q (dict_keys (assign_all prefix v ks d))
  <-> In q (dict_keys d) \/ In q (map (append prefix) ks).
Proof.
  revert d. induction ks as [ | k ks IH]; intros d; simpl.
  - intuition.
  - rewrite IH, dict_keys_set. intuition.
Qed.

Lemma assign_all_get (prefix v : pystr) (ks : list pystr) (d : dict)
  (k : pystr) :
  In k ks -> dict_get (prefix ++ k) (assign_all prefix v ks d) = Some v.
Proof.
  induction ks as [ | k0 ks IH] using rev_ind; intros Hin.
  - destruct Hin.
  - rewrite assign_all_snoc.
    destruct (string_dec (prefix ++ k0) (prefix ++ k)) as [E | Hne].
    + rewrite E. apply dict_get_set_eq.
    + rewrite dict_get_set_ne by assumption.
      apply IH. apply in_app_or in Hin.
      destruct Hin as [Hin | [-> | []]]; [assumption | congruence].
Qed.

Lemma assign_all_values (prefix v : pystr) (ks : list pystr) (d : dict) :
  (forall q x, dict_get q d = Some x -> x = v) ->
  forall q x, dict_get q (assign_all prefix v ks d) = Some x -> x = v.
Proof.
  induction ks as [ | k0 ks IH] using rev_ind; intros Hd q x; simpl.
  - apply Hd.
  - rewrite assign_all_snoc.
    destruct (string_dec (prefix ++ k0) q) as [<- | Hne].
    + rewrite dict_get_set_eq. congruence.
    + rewrite dict_get_set_ne by assumption. now apply IH.
Qed.

Section formatter.
Context {FS : FloatStr}.

Lemma format_loop_strs (prefix v : pystr) (ks : list pystr) (d : dict) :
  StatsdClient.format_loop prefix v (map PyStr ks) d
  = Ok (assign_all prefix v ks d).
Proof.
  revert d. induction ks as [ | k ks IH]; intros d; simpl; auto.
Qed.

(** C2: for a sequence (list or tuple) of keys [ks], [format] returns the
    mapping in which every [prefix + k] is bound to ["{value}|{type}"]; its
    keys are exactly the prefixed input keys, each held once, so it has one
    entry per distinct prefixed key and no other value; and the keys are
    written in input order, a later key overwriting the entry an earlier,
    colliding key left. *)
Theorem format_one_entry_per_prefixed_key (ks : list pystr) (value : pyval)
  (_type prefix : pystr) :
  let v := py_str value ++ "|" ++ _type in
  let d := assign_all prefix v ks [] in
  StatsdClient.format (PyList (map PyStr ks)) value _type prefix = Ok d
  /\ StatsdClient.format (PyTuple (map PyStr ks)) value _type prefix = Ok d
  /\ (forall k, In k ks -> dict_get (prefix ++ k) d = Some v)
  /\ (forall q, In q (dict_keys d) <-> In q (map (append prefix) ks))
  /\ (forall q x, dict_get q d = Some x -> x = v)
  /\ NoDup (dict_keys d)
  /\ List.length d
     = List.length (nodup string_dec (map (append prefix) ks))
  /\ (forall ks1 k d1,
        StatsdClient.format (PyList (map PyStr ks1)) value _type prefix = Ok d1 ->
        StatsdClient.format (PyList (map PyStr (ks1 ++ [k])%list)) value _type
          prefix
        = Ok (dict_set (prefix ++ k) v d1)
        /\ dict_get (prefix ++ k) (dict_set (prefix ++ k) v d1) = Some v).
Proof.
  intros v d.
  assert (Hkeys : forall q,
             In q (dict_keys d) <-> In q (map (append prefix) ks)).
  { intros q. unfold d. rewrite assign_all_keys. simpl. intuition. }
  assert (Hwf : NoDup (dict_keys d)).
  { apply (assign_all_wf prefix v ks []). constructor. }
  split; [apply format_loop_strs | ].
  split; [apply format_loop_strs | ].
  split; [intros k Hin; now apply assign_all_get | ].
  split; [exact Hkeys | ].
  split; [apply assign_all_values; intros q x; discriminate | ].
  split; [exact Hwf | ].
  split.
  - replace (List.length d) with (List.length (dict_keys d))
      by apply List.length_map.
    apply Nat.le_antisymm.
    + apply NoDup_incl_length; [exact Hwf | ].
      intros q Hq. apply nodup_In. now apply Hkeys.
    + apply NoDup_incl_length; [apply NoDup_nodup | ].
      intros q Hq. apply Hkeys. now apply nodup_In in Hq.
  - intros ks1 k d1 Hfmt. unfold StatsdClient.format in *.
    rewrite format_loop_strs in *. rewrite assign_all_snoc.
    injection Hfmt as <-. split; [reflexivity | apply dict_get_set_eq].
Qed.

(** C10: an argument that is neither a list nor a tuple is one single key:
    [format] treats it as the one-element list holding it. A string [s]
    therefore gives the single entry [prefix + s] (not one entry per
    character), and a set is not unpacked into its elements: it is the single
    key, which cannot be added to the prefix. *)
Theorem format_keys_only_list_or_tuple (keys : pyobj) (value : pyval)
  (_type prefix : pystr) :
  isinstance_list_tuple keys = false ->
  let v := py_str value ++ "|" ++ _type in
  StatsdClient.format keys value _type prefix
  = StatsdClient.format (PyList [keys]) value _type prefix
  /\ (forall s, keys = PyStr s ->
        StatsdClient.format keys value _type prefix = Ok [(prefix ++ s, v)])
  /\ (forall l, keys = PySet l ->
        StatsdClient.format keys value _type prefix = Raise TypeError)
  /\ (forall l,
        StatsdClient.format (PyList l) value _type prefix
        = StatsdClient.format_loop prefix v l []
        /\ StatsdClient.format (PyTuple l) value _type prefix
           = StatsdClient.format_loop prefix v l []).
Proof.
  intros Hnot v. repeat split.
  - destruct keys; try reflexivity; discriminate.
  - intros s ->. reflexivity.
  - intros l ->. reflexivity.
Qed.

End formatter.

(** ** The sampler, rates below 1 *)

Section sampler_below_1.
Context {FS : FloatStr}.

Lemma dict_keys_with_rate (sample_rate : pynum) (d : dict) :
  dict_keys (map (with_rate sample_rate) d) = dict_keys d.
Proof.
  unfold dict_keys. rewrite map_map. reflexivity.
Qed.

(** Over the items of a dictionary the loop appends one entry per item. *)
Lemma sample_loop_appends (items : list (pystr * pystr)) (sample_rate : pynum)
  (acc : dict) :
  NoDup (map fst items) ->
  (forall k, In k (map fst items) -> ~ In k (dict_keys acc)) ->
  StatsdClient.sample_loop items sample_rate acc
  = (acc ++ map (with_rate sample_rate) items)%list.
Proof.
  revert acc.
  induction items as [ | [k v] items IH]; intros acc Hnd Hfresh; simpl.
  - now rewrite app_nil_r.
  - inversion Hnd as [ | ? ? Hk Hrest]; subst.
    rewrite dict_set_fresh by (apply Hfresh; now left).
    rewrite IH; [ | assumption | ].
    + now rewrite <- app_assoc.
    + intros q Hq Hin. unfold dict_keys in Hin.
      rewrite map_app in Hin. apply in_app_or in Hin.
      destruct Hin as [Hin | [<- | []]].
      * apply (Hfresh q); [now right | exact Hin].
      * apply Hk. exact Hq.
Qed.

(** C3: for a non-empty mapping and a rate with [0 < rate < 1], [sample]
    draws exactly one value from the random source. When the draw is at most
    the rate the result has the pairs of the input, in order, each value
    followed by ["|@"] and the rate's string form; otherwise the result is
    empty. The one draw decides for every key. *)
Theorem sample_one_draw_decides (data : dict) (sample_rate : pynum) (w : World) :
  data <> [] ->
  dict_wf data ->
  py_lt (PyInt 0) sample_rate = true ->
  py_lt sample_rate (PyInt 1) = true ->
  let r := rand_src w (rand_pos w) in
  StatsdClient.sample data sample_rate w
  = (Ok (if py_le (PyFloat r) sample_rate
         then map (with_rate sample_rate) data
         else []),
     drew w)
  /\ rand_pos (snd (StatsdClient.sample data sample_rate w)) = S (rand_pos w)
  /\ dict_keys (map (with_rate sample_rate) data) = dict_keys data
  /\ (forall k v, In (k, v) data ->
        dict_get k (map (with_rate sample_rate) data)
        = Some (v ++ "|@" ++ num_str sample_rate)).
Proof.
  intros Hne Hwf Hpos Hlt r.
  assert (E : StatsdClient.sample data sample_rate w
              = (Ok (if py_le (PyFloat r) sample_rate
                     then map (with_rate sample_rate) data
                     else []),
                 drew w)).
  { unfold StatsdClient.sample.
    rewrite (py_lt_not_ge _ _ Hlt), Hlt.
    unfold bind, random. fold r.
    destruct (py_le (PyFloat r) sample_rate); [ | reflexivity].
    unfold ret, dict_items.
    rewrite sample_loop_appends; [reflexivity | exact Hwf | ].
    intros k _ []. }
  rewrite E. repeat split.
  - apply dict_keys_with_rate.
  - intros k v Hin. clear E Hne.
    induction data as [ | [k' v'] data IH]; [destruct Hin | ].
    inversion Hwf as [ | ? ? Hk Hrest]; subst. simpl.
    destruct Hin as [Heq | Hin].
    + injection Heq as -> ->. now rewrite String.eqb_refl.
    + destruct (String.eqb_spec k' k) as [-> | Hkk].
      * exfalso. apply Hk. change (In (fst (k, v)) (map fst data)).
        now apply in_map.
      * now apply IH.
Qed.

(** C4 (the code at the failing input): with rate [0] and a draw of [0.0]
    the sampler returns the pair, not the empty mapping. *)
Theorem sample_rate_0_draw_0 :
  StatsdClient.sample [("example.sample3", "3")] (PyInt 0) zero_draws
  = (Ok [("example.sample3", "3|@0")], drew zero_draws)
  /\ py_le (PyInt 0) (PyInt 0) = true
  /\ rand_src zero_draws (rand_pos zero_draws) = 0%float.
Proof.
  repeat split.
Qed.

End sampler_below_1.

(** ** Rates of at most 0 *)

Lemma pow2_pos (e : Z) : (0 <= e -> 0 < 2 ^ e)%Z.
Proof. intros He. apply Z.pow_pos_nonneg; lia. Qed.

Lemma Some_inj {A : Type} (a b : A) : Some a = Some b -> a = b.
Proof. congruence. Qed.

Lemma SFcompare_Z_finite (s : bool) (m : positive) (e z : Z) :
  SFcompare_Z (S754_finite s m e) z
  = if (0 <=? e)%Z then Some (signed s m * 2 ^ e ?= z)%Z
    else Some (signed s m ?= z * 2 ^ (- e))%Z.
Proof. reflexivity. Qed.

Lemma SFcompare_Z_gt_0 (f : spec_float) :
  SFcompare_Z f 0 = Some Gt -> sf_positive f.
Proof.
  destruct f as [s | s | | s m e]; try (simpl; discriminate).
  - destruct s; simpl; [discriminate | trivial].
  - rewrite SFcompare_Z_finite.
    destruct s; [ | simpl; trivial]. unfold signed.
    destruct (Z.leb_spec 0 e) as [He | He]; intros Hc;
      apply Some_inj in Hc; apply Z.compare_gt_iff in Hc.
    + pose proof (pow2_pos e He). pose proof (Pos2Z.neg_is_neg m). nia.
    + pose proof (Pos2Z.neg_is_neg m). lia.
Qed.

Lemma SFcompare_Z_le_0 (f : spec_float) (c : comparison) :
  SFcompare_Z f 0 = Some c -> c <> Gt -> sf_nonpositive f.
Proof.
  destruct f as [s | s | | s m e]; try (simpl; discriminate);
    try (simpl; trivial; fail).
  - destruct s; simpl; [trivial | ].
    intros Hc; injection Hc as <-. congruence.
  - rewrite SFcompare_Z_finite.
    destruct s; [simpl; trivial | ]. unfold signed.
    destruct (Z.leb_spec 0 e) as [He | He]; intros Hc Hgt;
      apply Some_inj in Hc; apply Hgt; rewrite <- Hc;
      apply Z.compare_gt_iff.
    + pose proof (pow2_pos e He). pose proof (Pos2Z.is_pos m). nia.
    + pose proof (Pos2Z.is_pos m). lia.
Qed.

Lemma SFcompare_pos_nonpos (a b : spec_float) :
  sf_positive a -> sf_nonpositive b -> SFcompare a b = Some Gt.
Proof.
  destruct a as [sa | sa | | sa ma ea]; simpl; try contradiction;
    destruct sa; try contradiction; intros _;
    destruct b as [sb | sb | | sb mb eb]; simpl; try contradiction;
    try destruct sb; try contradiction; reflexivity.
Qed.

Lemma SFcompare_Z_pos_le_0 (a : spec_float) (z : Z) :
  sf_positive a -> (z <= 0)%Z -> SFcompare_Z a z = Some Gt.
Proof.
  destruct a as [sa | sa | | sa ma ea]; try (simpl; contradiction);
    destruct sa; try (simpl; contradiction); intros _ Hz;
    [reflexivity | ].
  rewrite SFcompare_Z_finite. unfold signed.
  destruct (Z.leb_spec 0 ea) as [He | He]; f_equal; apply Z.compare_gt_iff.
  - pose proof (pow2_pos ea He). pose proof (Pos2Z.is_pos ma). nia.
  - pose proof (pow2_pos (- ea) ltac:(lia)). pose proof (Pos2Z.is_pos ma). nia.
Qed.

Lemma SFcompare_Z_nonpos_1 (b : spec_float) :
  sf_nonpositive b -> SFcompare_Z b 1 = Some Lt.
Proof.
  destruct b as [sb | sb | | sb mb eb]; try (simpl; contradiction).
  - reflexivity.
  - destruct sb; simpl; [reflexivity | contradiction].
  - destruct sb; [intros _ | simpl; contradiction].
    rewrite SFcompare_Z_finite. unfold signed.
    destruct (Z.leb_spec 0 eb) as [He | He]; f_equal; apply Z.compare_lt_iff.
    + pose proof (pow2_pos eb He). pose proof (Pos2Z.neg_is_neg mb). nia.
    + pose proof (pow2_pos (- eb) ltac:(lia)).
      pose proof (Pos2Z.neg_is_neg mb). nia.
Qed.

(** A number that is at most [0] is below [1]. *)
Lemma py_le_0_lt_1 (a : pynum) :
  py_le a (PyInt 0) = true -> num_compare a (PyInt 1) = Some Lt.
Proof.
  unfold py_le. destruct a as [z | f]; simpl.
  - destruct (Z.compare_spec z 0); intros; try discriminate;
      f_equal; apply Z.compare_lt_iff; lia.
  - destruct (SFcompare_Z (Prim2SF f) 0) as [c | ] eqn:E; [ | discriminate].
    intros Hc. apply SFcompare_Z_nonpos_1.
    apply (SFcompare_Z_le_0 _ c E). destruct c; congruence.
Qed.

(** A draw above [0] is above every number that is at most [0]. *)
Lemma py_positive_above_le_0 (r : float) (a : pynum) :
  py_lt (PyInt 0) (PyFloat r) = true ->
  py_le a (PyInt 0) = true ->
  py_le (PyFloat r) a = false.
Proof.
  unfold py_lt, py_le. simpl. intros Hr Ha.
  assert (Hpos : sf_positive (Prim2SF r)).
  { apply SFcompare_Z_gt_0.
    destruct (SFcompare_Z (Prim2SF r) 0) as [[ | | ] | ]; simpl in Hr;
      try discriminate; reflexivity. }
  destruct a as [z | f]; simpl in *.
  - rewrite SFcompare_Z_pos_le_0; [reflexivity | exact Hpos | ].
    destruct (Z.compare_spec z 0); try discriminate; lia.
  - destruct (SFcompare_Z (Prim2SF f) 0) as [c | ] eqn:E; [ | discriminate].
    rewrite (SFcompare_pos_nonpos _ _ Hpos); [reflexivity | ].
    apply (SFcompare_Z_le_0 _ c E). destruct c; congruence.
Qed.

Section sampler_le_0.
Context {FS : FloatStr}.

(** X18: with a rate of at most [0] the sampler draws once and returns the
    empty mapping whenever the draw is above [0]. *)
Lemma sample_rate_le_0_positive_draw (data : dict) (sample_rate : pynum)
  (w : World) :
  py_le sample_rate (PyInt 0) = true ->
  py_lt (PyInt 0) (PyFloat (rand_src w (rand_pos w))) = true ->
  StatsdClient.sample data sample_rate w = (Ok [], drew w).
Proof.
  intros Hrate Hdraw. unfold StatsdClient.sample.
  pose proof (py_le_0_lt_1 _ Hrate) as Hcmp.
  unfold py_ge, py_lt at 1. rewrite Hcmp.
  unfold bind, random.
  now rewrite (py_positive_above_le_0 _ _ Hdraw Hrate).
Qed.

End sampler_le_0.

(** ** Timing a call *)

Section timed_call.
Context {FS : FloatStr}.
Context {A Args : Type}.

(** A typed operation on a single string key sends exactly one datagram. *)
Lemma update_stats_str (self : statsd_client) (metric : pystr) (value : pyval)
  (_type : pystr) (w : World) :
  StatsdClient.update_stats self (PyStr metric) value _type None w
  = (Ok tt,
     sent [datagram_of (addr self)
             (prefix self ++ metric, py_str value ++ "|" ++ _type)]
       (opened w)).
Proof. reflexivity. Qed.

(** C8: [timeit] reads the clock, calls the function once, and
    - when the call returns, reads the clock again, hands the difference of
      the two readings times [1000.0] to [timing] under the metric name (one
      datagram, of type ["ms"]), and returns the call's result unchanged;
    - when the call raises, raises the same exception, in the world the call
      left: nothing is recorded and nothing hides the error. *)
Theorem timeit_returns_or_propagates (self : statsd_client) (metric : pystr)
  (func : Args -> M A) (args : Args) (w : World) :
  StatsdClient.timeit self (PyStr metric) func args w
  = match func args (ticked w) with
    | (Ok res, w1) =>
        let seconds :=
          PrimFloat.sub (clock_src w1 (clock_pos w1))
            (clock_src w (clock_pos w)) in
        let ms := VNum (PyFloat (PrimFloat.mul seconds 1000%float)) in
        (Ok res, snd (StatsdClient.timing self (PyStr metric) ms (ticked w1)))
    | (Raise e, w1) => (Raise e, w1)
    end
  /\ (forall (ms : pyval) (w' : World),
        StatsdClient.timing self (PyStr metric) ms w'
        = (Ok tt,
           sent [datagram_of (addr self)
                   (prefix self ++ metric, py_str ms ++ "|ms")]
             (opened w'))).
Proof.
  split.
  - unfold StatsdClient.timeit, statsdclient.timeit, bind, time_time, ret.
    destruct (func args (ticked w)) as [[res | e] w1]; [ | reflexivity].
    unfold StatsdClient.timing. rewrite update_stats_str. reflexivity.
  - intros ms w'. apply update_stats_str.
Qed.

End timed_call.

(** ** The facade without a backend *)

Lemma imported_unconfigured (rand clock : nat -> float) :
  _client (metrics.imported rand clock) = NullClientObj.
Proof. reflexivity. Qed.

Lemma resetclient_unconfigured (w : World) :
  metrics.resetclient w = (Ok tt, with_client NullClientObj w)
  /\ _client (snd (metrics.resetclient w)) = NullClientObj.
Proof. split; reflexivity. Qed.

Section null_facade.
Context {FS : FloatStr}.
Context {A Args : Type}.

(** C9: while the facade's client is the null client (as it is when the
    module has been imported and after every [resetclient]), [count],
    [timing] and [gauge] return normally and leave the world as it was (no
    datagram, no socket, no draw), whatever their arguments; and [timeit] is
    the wrapped call itself: same result or exception, same effects. *)
Theorem unconfigured_facade_is_noop (w : World) (metric : pyobj)
  (value : pyval) (count_value : option pyval) (sample_rate : option pynum)
  (func : Args -> M A) (args : Args) :
  _client w = NullClientObj ->
  metrics.count metric count_value sample_rate w = (Ok tt, w)
  /\ metrics.timing metric value w = (Ok tt, w)
  /\ metrics.gauge metric value w = (Ok tt, w)
  /\ metrics.timeit metric func args w = func args w.
Proof.
  intros Hnull.
  unfold metrics.count, metrics.timing, metrics.gauge, metrics.timeit,
    bind, metrics.get_client.
  rewrite Hnull. repeat split.
Qed.

End null_facade.

(** * Further properties of the client *)

Lemma assign_all_length (prefix v : pystr) (ks : list pystr) :
  List.length (assign_all prefix v ks [])
  = List.length (nodup string_dec (map (append prefix) ks)).
Proof.
  assert (Hwf : NoDup (dict_keys (assign_all prefix v ks []))).
  { apply (assign_all_wf prefix v ks []). constructor. }
  assert (Hkeys : forall q,
             In q (dict_keys (assign_all prefix v ks []))
             <-> In q (map (append prefix) ks)).
  { intros q. rewrite assign_all_keys. simpl. intuition. }
  replace (List.length (assign_all prefix v ks []))
    with (List.length (dict_keys (assign_all prefix v ks [])))
    by apply List.length_map.
  apply Nat.le_antisymm; apply NoDup_incl_length;
    try assumption; try apply NoDup_nodup; intros q Hq.
  - apply nodup_In. now apply Hkeys.
  - apply Hkeys. now apply nodup_In in Hq.
Qed.

(** ** When a typed operation raises *)

Section typed_operations.
Context {FS : FloatStr}.

Lemma format_loop_non_str (prefix v : pystr) (l : list pyobj) (d : dict) :
  forallb is_str l = false ->
  StatsdClient.format_loop prefix v l d = Raise TypeError.
Proof.
  revert d. induction l as [ | o l IH]; intros d; simpl; [discriminate | ].
  destruct o; simpl; try reflexivity. apply IH.
Qed.


Lemma format_key_list (keys : pyobj) (value : pyval) (_type prefix : pystr) :
  StatsdClient.format keys value _type prefix
  = StatsdClient.format_loop prefix (py_str value ++ "|" ++ _type)
      (key_list keys) [].
Proof. destruct keys; reflexivity. Qed.

(** The sampler never raises, and draws at most once. *)
Lemma sample_returns (data : dict) (sample_rate : pynum) (w : World) :
  exists d',
    StatsdClient.sample data sample_rate w = (Ok d', w)
    \/ StatsdClient.sample data sample_rate w = (Ok d', drew w).
Proof.
  unfold StatsdClient.sample.
  destruct (py_ge sample_rate (PyInt 1)); [exists data; now left | ].
  destruct (py_lt sample_rate (PyInt 1)); [ | exists []; now left].
  unfold bind, random.
  destruct (py_le _ sample_rate); eexists; right; reflexivity.
Qed.

(** At the default rate, [1], the sampler passes the mapping on. *)
Lemma sample_default_rate (data : dict) (w : World) :
  StatsdClient.sample data (PyInt 1) w = (Ok data, w).
Proof. reflexivity. Qed.

Lemma send_returns (d : dict) (a : address) (w : World) :
  StatsdClient.send d a w = (Ok tt, sent (map (datagram_of a) d) (opened w)).
Proof.
  unfold StatsdClient.send, bind, socket, dict_items. apply send_loop_sends.
Qed.


(** X2: [timing], [gauge], [set] and [count] without a rate, on a sequence of
    string keys, open one socket and send one datagram per distinct prefixed
    key, in the order of first occurrence, each
    ["{prefix}{key}:{value}|{suffix}"] with suffix ["ms"], ["g"], ["s"],
    ["c"]; no random value is drawn. An empty sequence opens the socket and
    sends nothing. *)
Theorem typed_operations_send_each_key (self : statsd_client)
  (ks : list pystr) (value : pyval) (w : World) :
  let out (suffix : pystr) :=
    (Ok tt,
     sent (map (datagram_of (addr self))
             (assign_all (prefix self) (py_str value ++ "|" ++ suffix) ks []))
       (opened w)) in
  StatsdClient.timing self (PyList (map PyStr ks)) value w = out "ms"
  /\ StatsdClient.gauge self (PyList (map PyStr ks)) value w = out "g"
  /\ StatsdClient.set self (PyList (map PyStr ks)) value w = out "s"
  /\ StatsdClient.count self (PyList (map PyStr ks)) value None w = out "c"
  /\ List.length (wire (snd (StatsdClient.timing self (PyList (map PyStr ks))
                               value w)))
     = List.length (wire w)
       + List.length (nodup string_dec (map (append (prefix self)) ks))
  /\ rand_pos (snd (StatsdClient.timing self (PyList (map PyStr ks)) value w))
     = rand_pos w.
Proof.
  intros out.
  assert (E : forall suffix rate,
             default (PyInt 1) rate = PyInt 1 ->
             StatsdClient.update_stats self (PyList (map PyStr ks)) value
               suffix rate w
             = out suffix).
  { intros suffix rate Hrate.
    unfold StatsdClient.update_stats, bind, lift, StatsdClient.format.
    rewrite format_loop_strs, Hrate, sample_default_rate.
    now rewrite send_returns. }
  assert (Et : StatsdClient.timing self (PyList (map PyStr ks)) value w
               = out "ms") by (apply E; reflexivity).
  split; [exact Et | ].
  split; [apply E; reflexivity | ].
  split; [apply E; reflexivity | ].
  split; [apply E; reflexivity | ].
  rewrite Et. unfold out. simpl. split; [ | reflexivity].
  rewrite List.length_app, List.length_map. f_equal.
  apply assign_all_length.
Qed.

(** X3: [count] on one string key with a rate below [1] draws once. When the
    draw is at most the rate it sends the one datagram
    ["{prefix}{key}:{value}|c|@{rate}"]; otherwise it sends nothing. In both
    cases a socket has been opened. *)
Theorem count_sampled_wire_format (self : statsd_client) (key : pystr)
  (value : pyval) (sample_rate : pynum) (w : World) :
  py_lt sample_rate (PyInt 1) = true ->
  let r := rand_src w (rand_pos w) in
  StatsdClient.count self (PyStr key) value (Some sample_rate) w
  = (Ok tt,
     if py_le (PyFloat r) sample_rate
     then sent [Datagram
                  (encode_utf8
                     ((prefix self ++ key) ++ ":"
                      ++ (py_str value ++ "|c") ++ "|@" ++ num_str sample_rate))
                  (addr self)]
            (opened (drew w))
     else opened (drew w)).
Proof.
  intros Hlt r.
  unfold StatsdClient.count, StatsdClient.update_stats, bind, lift.
  simpl default. unfold StatsdClient.sample.
  rewrite (py_lt_not_ge _ _ Hlt), Hlt.
  unfold StatsdClient.format, bind, random. simpl StatsdClient.format_loop.
  fold r. destruct (py_le (PyFloat r) sample_rate); unfold ret.
  - rewrite send_returns. reflexivity.
  - rewrite send_returns. simpl. now rewrite sent_nil.
Qed.

(** X4: a rate that is a NaN is neither [>= 1] nor [< 1]: the sampler
    returns the empty mapping without drawing, so [count] opens a socket and
    sends nothing, whatever the keys. *)
Theorem count_nan_rate_sends_nothing (self : statsd_client) (ks : list pystr)
  (value : pyval) (f : float) (w : World) :
  Prim2SF f = S754_nan ->
  (forall data, StatsdClient.sample data (PyFloat f) w = (Ok [], w))
  /\ StatsdClient.count self (PyList (map PyStr ks)) value (Some (PyFloat f)) w
     = (Ok tt, opened w).
Proof.
  intros Hnan.
  assert (E : forall data, StatsdClient.sample data (PyFloat f) w = (Ok [], w)).
  { intros data. unfold StatsdClient.sample, py_ge, py_lt, num_compare.
    rewrite Hnan. reflexivity. }
  split; [exact E | ].
  unfold StatsdClient.count, StatsdClient.update_stats, bind, lift,
    StatsdClient.format.
  rewrite format_loop_strs. simpl default. rewrite E, send_returns.
  simpl. now rewrite sent_nil.
Qed.

(** X5: the sampler is all or nothing. For every mapping, rate and world it
    returns normally; the result is empty or has exactly the keys of the
    input, in the same order; and the random source has advanced by at most
    one draw while nothing else in the world has changed. *)
Theorem sample_all_or_nothing (data : dict) (sample_rate : pynum) (w : World) :
  dict_wf data ->
  exists d',
    fst (StatsdClient.sample data sample_rate w) = Ok d'
    /\ (d' = [] \/ dict_keys d' = dict_keys data)
    /\ (snd (StatsdClient.sample data sample_rate w) = w
        \/ snd (StatsdClient.sample data sample_rate w) = drew w).
Proof.
  intros Hwf. unfold StatsdClient.sample.
  destruct (py_ge sample_rate (PyInt 1)).
  { exists data. simpl. auto. }
  destruct (py_lt sample_rate (PyInt 1)).
  2: { exists []. simpl. auto. }
  unfold bind, random.
  destruct (py_le _ sample_rate).
  - exists (map (with_rate sample_rate) data). simpl. split; [ | split; auto].
    + unfold dict_items. f_equal.
      rewrite sample_loop_appends; [reflexivity | exact Hwf | intros k _ []].
    + right. apply dict_keys_with_rate.
  - exists []. simpl. auto.
Qed.

(** X6: what a typed operation leaves alone. Whatever the arguments,
    [update_stats] only appends to the wire, and every datagram it appends is
    addressed to the client's own destination; it opens at most one socket,
    draws at most one random value, and never reads the clock, writes to the
    log or replaces the facade's client. *)
Theorem update_stats_frame (self : statsd_client) (keys : pyobj)
  (value : pyval) (_type : pystr) (sample_rate : option pynum) (w : World) :
  let w' :=
    snd (StatsdClient.update_stats self keys value _type sample_rate w) in
  (exists ds, wire w' = (wire w ++ ds)%list
              /\ Forall (fun d => dest d = addr self) ds)
  /\ sockets w' <= S (sockets w)
  /\ (rand_pos w' = rand_pos w \/ rand_pos w' = S (rand_pos w))
  /\ rand_src w' = rand_src w
  /\ clock_pos w' = clock_pos w
  /\ clock_src w' = clock_src w
  /\ log w' = log w
  /\ _client w' = _client w.
Proof.
  unfold StatsdClient.update_stats, bind, lift.
  destruct (StatsdClient.format keys value _type (prefix self)) as [d | e].
  2: { simpl. repeat split; auto.
       exists []. split; [now rewrite app_nil_r | constructor]. }
  assert (Hdest : forall items : dict,
             Forall (fun dg => dest dg = addr self)
               (map (datagram_of (addr self)) items)).
  { intros items. apply Forall_forall. intros dg Hin.
    apply in_map_iff in Hin. destruct Hin as [item [<- _]]. reflexivity. }
  destruct (sample_returns d (default (PyInt 1) sample_rate) w)
    as [d' [-> | ->]]; rewrite send_returns; simpl; repeat split; auto;
    eexists; split; try reflexivity; apply Hdest.
Qed.

(** X19: on one string key and with no rate, [increment] sends the one
    datagram ["{prefix}{key}:1|c"] and [decrement] the one datagram
    ["{prefix}{key}:-1|c"], to the client's destination, without drawing. *)
Theorem increment_decrement_wire (self : statsd_client) (key : pystr)
  (w : World) :
  StatsdClient.increment self (PyStr key) None w
  = (Ok tt,
     sent [datagram_of (addr self) (prefix self ++ key, "1|c")] (opened w))
  /\ StatsdClient.decrement self (PyStr key) None w
     = (Ok tt,
        sent [datagram_of (addr self) (prefix self ++ key, "-1|c")] (opened w)).
Proof. split; reflexivity. Qed.

End typed_operations.

(** * Further properties of the facade *)

Lemma with_client_same (w : World) : with_client (_client w) w = w.
Proof. now destruct w. Qed.

Lemma key_prefix_truthy (prefix : option pystr) :
  opt_truthy prefix = true -> str_truthy (key_prefix prefix) = true.
Proof.
  unfold key_prefix. intros ->.
  destruct prefix as [[ | c s] | ]; reflexivity.
Qed.

Section facade.
Context {FS : FloatStr}.

(** X7: [configure] sends nothing and opens no socket; it writes one INFO
    record and installs a client. From then on [gauge], [timing] and [count]
    on a metric name send one datagram to the configured host and port
    (defaults [localhost], [8125]), the name prefixed with ["{prefix}."]
    when a non-empty prefix was given and left as it is otherwise; [count]
    with no value and no rate sends ["1|c"]. *)
Theorem configured_facade_sends (host : option pystr) (port : option Z)
  (pfx : option pystr) (metric : pystr) (value : pyval) (w : World) :
  let w1 := snd (metrics.configure host port pfx w) in
  let to := (default "localhost" host, default 8125%Z port) in
  let key := key_prefix pfx ++ metric in
  fst (metrics.configure host port pfx w) = Ok tt
  /\ wire w1 = wire w
  /\ sockets w1 = sockets w
  /\ log w1 = (log w ++ [configure_record host port pfx])%list
  /\ metrics.gauge (PyStr metric) value w1
     = (Ok tt, sent [datagram_of to (key, py_str value ++ "|g")] (opened w1))
  /\ metrics.timing (PyStr metric) value w1
     = (Ok tt, sent [datagram_of to (key, py_str value ++ "|ms")] (opened w1))
  /\ metrics.count (PyStr metric) None None w1
     = (Ok tt, sent [datagram_of to (key, "1|c")] (opened w1)).
Proof.
  destruct host, port, pfx as [[ | c s] | ]; repeat split.
Qed.

(** X8: the facade's client is replaced wholesale. After two [configure]
    calls the client is the one the second call describes; and on a facade
    without a backend, [resetclient] changes nothing and [configure]
    followed by [resetclient] leaves only the log record behind. *)
Theorem configure_replaces_reset_restores (h1 h2 : option pystr)
  (p1 p2 : option Z) (x1 x2 : option pystr) (w : World) :
  _client w = NullClientObj ->
  _client (snd (metrics.configure h2 p2 x2
                  (snd (metrics.configure h1 p1 x1 w))))
  = StatsdClientObj
      (Build_client (default "localhost" h2, default 8125%Z p2)
         (key_prefix x2))
  /\ metrics.resetclient w = (Ok tt, w)
  /\ snd (metrics.resetclient (snd (metrics.configure h1 p1 x1 w)))
     = logged (configure_record h1 p1 x1) w.
Proof.
  intros Hnull. split; [ | split].
  - destruct h2, p2, x2 as [[ | c s] | ]; reflexivity.
  - unfold metrics.resetclient, metrics.set_client.
    now rewrite <- Hnull, with_client_same.
  - destruct w; simpl in Hnull; subst. reflexivity.
Qed.

End facade.

(** ** The decorator *)

Section decorator.
Context {FS : FloatStr}.
Context {A Args : Type}.

Lemma statsd_timeit_str (self : statsd_client) (metric : pystr)
  (func : Args -> M A) (args : Args) (w : World) :
  StatsdClient.timeit self (PyStr metric) func args w
  = match func args (ticked w) with
    | (Ok res, w1) =>
        (Ok res,
         sent [timing_datagram self metric (clock_src w (clock_pos w))
                 (clock_src w1 (clock_pos w1))]
           (opened (ticked w1)))
    | (Raise e, w1) => (Raise e, w1)
    end.
Proof.
  unfold StatsdClient.timeit, statsdclient.timeit, bind, time_time, ret.
  destruct (func args (ticked w)) as [[res | e] w1]; reflexivity.
Qed.

(** X9: without a backend a decorated function is the function: calling
    [timed(prefix)(func)] has the result, the exception and the effects of
    calling [func], and reads no clock. *)
Theorem timed_unconfigured_is_the_function (p : option pystr)
  (func : pyfunc Args A) (args : Args) (w : World) :
  _client w = NullClientObj ->
  call (metrics.timed p func) args w = call func args w.
Proof.
  intros Hnull. unfold metrics.timed, metrics.timeit, bind, metrics.get_client.
  simpl. now rewrite Hnull.
Qed.

(** X10: with a backend, calling [timed(prefix)(func)] calls [func] once
    between two clock reads. When [func] returns, its result is returned and
    one ["ms"] datagram goes to the client's destination, named
    ["{prefix}.{func.__name__}"] for a non-empty [prefix] and
    [func.__name__] otherwise, after the client's own key prefix; when
    [func] raises, the exception passes through and nothing is sent. The
    client used is the one installed when the call starts. *)
Theorem timed_configured_times_the_call (self : statsd_client)
  (p : option pystr) (func : pyfunc Args A) (args : Args) (w : World) :
  _client w = StatsdClientObj self ->
  call (metrics.timed p func) args w
  = match call func args (ticked w) with
    | (Ok res, w1) =>
        (Ok res,
         sent [timing_datagram self (metric_name p (__name__ func))
                 (clock_src w (clock_pos w)) (clock_src w1 (clock_pos w1))]
           (opened (ticked w1)))
    | (Raise e, w1) => (Raise e, w1)
    end.
Proof.
  intros Hc. unfold metrics.timed, metrics.timeit, bind, metrics.get_client.
  simpl. rewrite Hc. apply statsd_timeit_str.
Qed.

(** X11: the decorator does not keep the function's name: what it returns
    is called ["wrapped"]. So a function decorated twice, once its call
    returns, has sent two datagrams: the inner one under the function's name
    and the outer one under ["wrapped"]. *)
Theorem timed_twice_records_wrapped (self : statsd_client)
  (p1 p2 : option pystr) (func : pyfunc Args A) (args : Args) (w w1 : World)
  (res : A) :
  _client w = StatsdClientObj self ->
  call func args (ticked (ticked w)) = (Ok res, w1) ->
  __name__ (metrics.timed p1 func) = "wrapped"
  /\ call (metrics.timed p2 (metrics.timed p1 func)) args w
     = (Ok res,
        sent [timing_datagram self (metric_name p2 "wrapped")
                (clock_src w (clock_pos w))
                (clock_src w1 (S (clock_pos w1)))]
          (opened (ticked
             (sent [timing_datagram self (metric_name p1 (__name__ func))
                      (clock_src w (S (clock_pos w)))
                      (clock_src w1 (clock_pos w1))]
                (opened (ticked w1)))))).
Proof.
  intros Hc Hcall. split; [reflexivity | ].
  unfold metrics.timed at 1. unfold metrics.timeit, bind, metrics.get_client.
  cbn [call __name__]. rewrite Hc, statsd_timeit_str.
  unfold metrics.timed. cbn [call __name__].
  unfold metrics.timeit, bind, metrics.get_client.
  cbn [_client ticked]. rewrite Hc, statsd_timeit_str, Hcall.
  reflexivity.
Qed.

End decorator.

(** ** Patching the methods of an object *)

Section patching.
Context {FS : FloatStr}.
Context {A Args : Type}.

Lemma getattr_setattr_eq (obj : pyobject Args A) (name : pystr)
  (value : pyfunc Args A) :
  getattr (setattr obj name value) name = Some value.
Proof.
  induction obj as [ | [n f] obj IH]; simpl.
  - now rewrite String.eqb_refl.
  - destruct (String.eqb n name) eqn:E; simpl; rewrite E; auto.
Qed.

Lemma getattr_setattr_ne (obj : pyobject Args A) (name other : pystr)
  (value : pyfunc Args A) :
  name <> other -> getattr (setattr obj name value) other = getattr obj other.
Proof.
  intros Hne.
  induction obj as [ | [n f] obj IH]; simpl.
  - destruct (String.eqb_spec name other); congruence.
  - destruct (String.eqb_spec n name) as [-> | Hn]; simpl.
    + destruct (String.eqb_spec name other); congruence.
    + destruct (String.eqb_spec n other); auto.
Qed.

(** The function [timed(prefix)] makes of [f] inside [time_methods]. *)
Lemma timed_in_time_methods (prefix : option pystr) (f : pyfunc Args A) :
  metrics.timed (Some (key_prefix prefix)) f
  = Build_pyfunc "wrapped"
      (fun args =>
         metrics.timeit (PyStr (patched_metric_name prefix (__name__ f)))
           (call f) args).
Proof.
  unfold metrics.timed, patched_metric_name, key_prefix.
  destruct prefix as [[ | c s] | ]; reflexivity.
Qed.

Lemma time_methods_loop_patches (methods : list pystr) (pfx : pystr) :
  forall obj : pyobject Args A,
    NoDup methods ->
    (forall m, In m methods -> getattr obj m <> None) ->
    exists obj',
      metrics.time_methods_loop obj methods pfx = (Ok tt, obj')
      /\ (forall m f, In m methods -> getattr obj m = Some f ->
            getattr obj' m = Some (metrics.timed (Some pfx) f))
      /\ (forall m, ~ In m methods -> getattr obj' m = getattr obj m).
Proof.
  induction methods as [ | m0 methods IH]; intros obj Hnd Hall.
  - exists obj. simpl. repeat split; auto. intros m f [].
  - inversion Hnd as [ | ? ? Hm0 Hnd']; subst. simpl.
    destruct (getattr obj m0) as [f0 | ] eqn:E0.
    2: { exfalso. apply (Hall m0); [now left | exact E0]. }
    destruct (IH (setattr obj m0 (metrics.timed (Some pfx) f0)) Hnd')
      as [obj' [Hrun [Hin Hout]]].
    { intros m Hm. rewrite getattr_setattr_ne.
      - apply Hall. now right.
      - intros ->. contradiction. }
    exists obj'. split; [exact Hrun | split].
    + intros m f [<- | Hm] Hf.
      * rewrite Hout by assumption. rewrite getattr_setattr_eq. congruence.
      * apply Hin; [exact Hm | ]. rewrite getattr_setattr_ne; [exact Hf | ].
        intros ->. contradiction.
    + intros m Hm. rewrite Hout by (intros Hin'; apply Hm; now right).
      apply getattr_setattr_ne. intros ->. apply Hm. now left.
Qed.

Lemma time_methods_loop_app (ms1 ms2 : list pystr) (pfx : pystr) :
  forall obj : pyobject Args A,
    metrics.time_methods_loop obj (ms1 ++ ms2)%list pfx
    = match metrics.time_methods_loop obj ms1 pfx with
      | (Ok _, obj1) => metrics.time_methods_loop obj1 ms2 pfx
      | (Raise e, obj1) => (Raise e, obj1)
      end.
Proof.
  induction ms1 as [ | m ms1 IH]; intros obj; simpl; [reflexivity | ].
  destruct (getattr obj m); [apply IH | reflexivity].
Qed.

(** X12: [time_methods], given distinct names of methods the object has,
    succeeds; each named method [f] is then bound to a function called
    ["wrapped"] whose call is [timeit(name, f, ...)], where the metric name is
    [f.__name__] without a prefix and ["{prefix}..{f.__name__}"] (two dots)
    with one; every other attribute is as it was. *)
Theorem time_methods_patches_the_named (obj : pyobject Args A)
  (methods : list pystr) (prefix : option pystr) :
  NoDup methods ->
  (forall m, In m methods -> getattr obj m <> None) ->
  exists obj',
    metrics.time_methods obj methods prefix = (Ok tt, obj')
    /\ (forall m f, In m methods -> getattr obj m = Some f ->
          getattr obj' m
          = Some (Build_pyfunc "wrapped"
                    (fun args =>
                       metrics.timeit
                         (PyStr (patched_metric_name prefix (__name__ f)))
                         (call f) args)))
    /\ (forall m, ~ In m methods -> getattr obj' m = getattr obj m).
Proof.
  intros Hnd Hall.
  destruct (time_methods_loop_patches methods (key_prefix prefix) obj Hnd Hall)
    as [obj' [Hrun [Hin Hout]]].
  exists obj'. split; [exact Hrun | split; [ | exact Hout]].
  intros m f Hm Hf. rewrite <- timed_in_time_methods. now apply Hin.
Qed.

(** X13: a name the object has no attribute for stops [time_methods] with
    [AttributeError]; the methods named before it stay patched, those named
    after it are not touched. *)
Theorem time_methods_missing_attribute (obj : pyobject Args A)
  (before after : list pystr) (missing : pystr) (prefix : option pystr) :
  NoDup before ->
  (forall m, In m before -> getattr obj m <> None) ->
  getattr obj missing = None ->
  exists obj',
    metrics.time_methods obj (before ++ missing :: after)%list prefix
    = (Raise (Exception "AttributeError"), obj')
    /\ (forall m f, In m before -> getattr obj m = Some f ->
          getattr obj' m = Some (metrics.timed (Some (key_prefix prefix)) f))
    /\ (forall m, ~ In m before -> getattr obj' m = getattr obj m).
Proof.
  intros Hnd Hall Hmiss.
  destruct (time_methods_loop_patches before (key_prefix prefix) obj Hnd Hall)
    as [obj' [Hrun [Hin Hout]]].
  exists obj'. split; [ | split; assumption].
  change (metrics.time_methods obj (before ++ missing :: after)%list prefix)
    with (metrics.time_methods_loop obj (before ++ missing :: after)%list
            (key_prefix prefix)).
  rewrite time_methods_loop_app, Hrun. simpl.
  rewrite Hout, Hmiss; [reflexivity | ].
  intros Hb. apply (Hall missing Hb Hmiss).
Qed.

End patching.

(** ** Timing, once more *)

Section timing_edges.
Context {FS : FloatStr}.
Context {A Args : Type}.

(** X14: a method patched by [time_methods], called while the facade has no
    backend, does what the method did: same result or exception, same
    effects. *)
Theorem time_methods_unconfigured_is_transparent (obj : pyobject Args A)
  (methods : list pystr) (prefix : option pystr) (m : pystr)
  (f : pyfunc Args A) (args : Args) (w : World) :
  NoDup methods ->
  (forall m', In m' methods -> getattr obj m' <> None) ->
  In m methods ->
  getattr obj m = Some f ->
  _client w = NullClientObj ->
  exists g,
    getattr (snd (metrics.time_methods obj methods prefix)) m = Some g
    /\ call g args w = call f args w.
Proof.
  intros Hnd Hall Hm Hf Hnull.
  destruct (time_methods_loop_patches methods (key_prefix prefix) obj Hnd Hall)
    as [obj' [Hrun [Hin _]]].
  exists (metrics.timed (Some (key_prefix prefix)) f). split.
  - change (metrics.time_methods obj methods prefix)
      with (metrics.time_methods_loop obj methods (key_prefix prefix)).
    rewrite Hrun. simpl. now apply Hin.
  - unfold metrics.timed, metrics.timeit, bind, metrics.get_client.
    simpl. now rewrite Hnull.
Qed.

(** X15: around a call that returns and does not itself read the clock, the
    module's [timeit] reads the clock exactly twice and returns the call's
    result paired with the second reading minus the first. *)
Theorem timeit_measures_between_two_readings (func : Args -> M A)
  (args : Args) (w w1 : World) (res : A) :
  func args (ticked w) = (Ok res, w1) ->
  clock_src w1 = clock_src w ->
  clock_pos w1 = S (clock_pos w) ->
  statsdclient.timeit func args w
  = (Ok (res,
         PrimFloat.sub (clock_src w (S (clock_pos w)))
           (clock_src w (clock_pos w))),
     ticked w1)
  /\ clock_pos (ticked w1) = 2 + clock_pos w.
Proof.
  intros Hcall Hsrc Hpos.
  unfold statsdclient.timeit, bind, time_time, ret.
  rewrite Hcall, Hsrc, Hpos. split; [reflexivity | ].
  simpl. now rewrite Hpos.
Qed.

(** X16: [StatsdClient.timeit] formats the metric only after the call. With
    a metric that is not a string (nor a sequence of strings) the function is
    still called, and its effects stay, but its result is lost: [timeit]
    raises [TypeError], with both clock reads done and nothing sent. *)
Theorem timeit_non_string_metric_loses_result (self : statsd_client)
  (metric : pyobj) (func : Args -> M A) (args : Args) (w w1 : World)
  (res : A) :
  forallb is_str (key_list metric) = false ->
  func args (ticked w) = (Ok res, w1) ->
  StatsdClient.timeit self metric func args w = (Raise TypeError, ticked w1).
Proof.
  intros Hbad Hcall.
  unfold StatsdClient.timeit, statsdclient.timeit, bind, time_time, ret.
  rewrite Hcall. unfold StatsdClient.timing.
  unfold StatsdClient.update_stats, bind, lift.
  rewrite format_key_list, format_loop_non_str by assumption.
  reflexivity.
Qed.

End timing_edges.

(** ** Prefixing keeps keys apart *)

Lemma append_cancel (p a b : pystr) : p ++ a = p ++ b -> a = b.
Proof.
  induction p as [ | c p IH]; simpl; intros E; [exact E | ].
  injection E as E. auto.
Qed.

Lemma nodup_map_append_length (p : pystr) (ks : list pystr) :
  List.length (nodup string_dec (map (append p) ks))
  = List.length (nodup string_dec ks).
Proof.
  induction ks as [ | k ks IH]; simpl; [reflexivity | ].
  destruct (in_dec string_dec (p ++ k) (map (append p) ks)) as [Hin | Hout];
    destruct (in_dec string_dec k ks) as [Hk | Hk]; simpl; auto.
  - exfalso. apply in_map_iff in Hin. destruct Hin as [k' [E Hk']].
    apply append_cancel in E. subst. contradiction.
  - exfalso. apply Hout. now apply in_map.
Qed.

Lemma dict_get_In_keys (k v : pystr) (d : dict) :
  dict_get k d = Some v -> In k (dict_keys d).
Proof.
  unfold dict_keys.
  induction d as [ | [k' v'] d IH]; simpl; [discriminate | ].
  destruct (String.eqb_spec k' k) as [-> | Hk]; intros Hget; auto.
Qed.

Section distinct_keys.
Context {FS : FloatStr}.

(** X17: prefixing never merges two different keys. [format] on a sequence
    of string keys has exactly as many entries as the input has distinct
    keys, and two different keys get two different entries, both present. *)
Theorem format_keeps_distinct_keys_apart (ks : list pystr) (value : pyval)
  (_type prefix : pystr) :
  exists d,
    StatsdClient.format (PyList (map PyStr ks)) value _type prefix = Ok d
    /\ List.length d = List.length (nodup string_dec ks)
    /\ (forall k1 k2, In k1 ks -> In k2 ks -> k1 <> k2 ->
          prefix ++ k1 <> prefix ++ k2
          /\ dict_get (prefix ++ k1) d = Some (py_str value ++ "|" ++ _type)
          /\ dict_get (prefix ++ k2) d = Some (py_str value ++ "|" ++ _type))
    /\ (forall q, (forall k, In k ks -> q <> prefix ++ k) ->
          dict_get q d = None).
Proof.
  exists (assign_all prefix (py_str value ++ "|" ++ _type) ks []).
  split; [apply format_loop_strs | ].
  split; [now rewrite assign_all_length, nodup_map_append_length | ].
  split.
  - intros k1 k2 H1 H2 Hne. split; [ | split]; try now apply assign_all_get.
    intros E. apply Hne. now apply append_cancel in E.
  - intros q Hq.
    destruct (dict_get q (assign_all prefix (py_str value ++ "|" ++ _type) ks []))
      as [x | ] eqn:E; [ | reflexivity].
    exfalso. apply dict_get_In_keys in E.
    apply assign_all_keys in E. destruct E as [[] | E].
    apply in_map_iff in E. destruct E as [k [<- Hk]]. now apply (Hq k).
Qed.

End distinct_keys.

(** * The doctests of the source, and instances of the theorems *)

#[local] Existing Instance repr_examples.

Example format_doctest_single :
  StatsdClient.format (PyStr "example.format") (VNum (PyInt 2)) "T" EmptyString
  = Ok [("example.format", "2|T")].
Proof. reflexivity. Qed.

Example format_doctest_tuple :
  StatsdClient.format
    (PyTuple [PyStr "example.format31"; PyStr "example.format37"])
    (VStr "2") "T" EmptyString
  = Ok [("example.format31", "2|T"); ("example.format37", "2|T")].
Proof. reflexivity. Qed.

Example format_doctest_prefix :
  StatsdClient.format (PyStr "example.format") (VNum (PyInt 2)) "T" "prefix."
  = Ok [("prefix.example.format", "2|T")].
Proof. reflexivity. Qed.

Example format_duplicate_key :
  StatsdClient.format (PyList [PyStr "a"; PyStr "b"; PyStr "a"])
    (VNum (PyInt (-3))) "c" "p."
  = Ok [("p.a", "-3|c"); ("p.b", "-3|c")].
Proof. reflexivity. Qed.

Example format_set_is_a_type_error :
  StatsdClient.format (PySet [PyStr "a"; PyStr "b"]) (VNum (PyInt 1)) "c" EmptyString
  = Raise TypeError.
Proof. reflexivity. Qed.

Example sample_doctest_rate_1 :
  fst (StatsdClient.sample [("example.sample2", "2")] (PyInt 1) quarter_draws)
  = Ok [("example.sample2", "2")].
Proof. reflexivity. Qed.

Example sample_doctest_rate_0 :
  fst (StatsdClient.sample [("example.sample3", "3")] (PyInt 0) quarter_draws)
  = Ok [].
Proof. reflexivity. Qed.

Example sample_nan_rate :
  StatsdClient.sample [("k", "1|c")] (PyFloat nan) quarter_draws
  = (Ok [], quarter_draws).
Proof. reflexivity. Qed.

Example timeit_doctest :
  let client := StatsdClient.__init__ None None None in
  let r := StatsdClient.timeit client (PyStr "latency")
             (fun x : nat => ret (x + 1)) 3 quarter_draws in
  fst r = Ok 4
  /\ wire (snd r)
     = [Datagram (encode_utf8 "latency:1250.0|ms") ("localhost", 8125%Z)]
  /\ clock_pos (snd r) = 2.
Proof. repeat split. Qed.

Example configure_then_count :
  let w := snd (metrics.configure None None (Some "mymetrics") quarter_draws) in
  log w = [("INFO", "Reconfiguring metrics: localhost:8125/mymetrics")]
  /\ wire (snd (metrics.count (PyStr "metric") (Some (VNum (PyInt (-2)))) None w))
     = [Datagram (encode_utf8 "mymetrics.metric:-2|c") ("localhost", 8125%Z)].
Proof. split; reflexivity. Qed.

(** C3 at a two-key mapping, rate [0.5] and a draw of [0.25]. *)
Lemma sample_one_draw_decides_witness :
  StatsdClient.sample [("example.sample5", "5"); ("example.sample7", "7")]
    (PyFloat 0.5) quarter_draws
  = (Ok [("example.sample5", "5|@0.5"); ("example.sample7", "7|@0.5")],
     drew quarter_draws).
Proof.
  apply (sample_one_draw_decides (FS := repr_examples)
           [("example.sample5", "5"); ("example.sample7", "7")]
           (PyFloat 0.5) quarter_draws).
  - discriminate.
  - unfold dict_wf. simpl. repeat constructor; simpl; intuition discriminate.
  - reflexivity.
  - reflexivity.
Defined.

(** C5 at the rates [1] and [1.5]. *)
Lemma sample_rate_ge_1_identity_witness :
  StatsdClient.sample [("example.sample2", "2")] (PyInt 1) quarter_draws
  = (Ok [("example.sample2", "2")], quarter_draws)
  /\ StatsdClient.sample [("example.sample2", "2")] (PyFloat 1.5) quarter_draws
     = (Ok [("example.sample2", "2")], quarter_draws).
Proof.
  split; apply (sample_rate_ge_1_identity (FS := repr_examples));
    reflexivity.
Defined.

(** C9 after a [configure] undone by [resetclient]. *)
Lemma unconfigured_facade_is_noop_witness :
  let w := snd (metrics.resetclient
                  (snd (metrics.configure None None None quarter_draws))) in
  metrics.count (PyStr "x") None None w = (Ok tt, w)
  /\ metrics.timing (PyStr "x") (VNum (PyInt 33)) w = (Ok tt, w)
  /\ metrics.gauge (PyStr "x") (VNum (PyInt 33)) w = (Ok tt, w)
  /\ metrics.timeit (PyStr "x") (fun x : nat => ret (x + 1)) 3 w
     = (fun x : nat => ret (x + 1)) 3 w.
Proof.
  intros w.
  apply (unconfigured_facade_is_noop (FS := repr_examples) w (PyStr "x")
           (VNum (PyInt 33)) None None (fun x : nat => ret (x + 1)) 3).
  reflexivity.
Defined.

(** C10 at the string ["example.format"]. *)
Lemma format_keys_only_list_or_tuple_witness :
  StatsdClient.format (PyStr "example.format") (VNum (PyInt 2)) "T" "prefix."
  = StatsdClient.format (PyList [PyStr "example.format"]) (VNum (PyInt 2)) "T"
      "prefix.".
Proof.
  exact (proj1 (format_keys_only_list_or_tuple (FS := repr_examples)
                  (PyStr "example.format") (VNum (PyInt 2)) "T" "prefix."
                  eq_refl)).
Defined.

(** * Instances of the further properties *)

(** X3 at a rate of [0.5] and a draw of [0.25]. *)
Lemma count_sampled_wire_format_witness :
  StatsdClient.count (StatsdClient.__init__ None None (Some "app"))
    (PyStr "hits") (VNum (PyInt 1)) (Some (PyFloat 0.5)) quarter_draws
  = (Ok tt,
     sent [Datagram (encode_utf8 "app.hits:1|c|@0.5") ("localhost", 8125%Z)]
       (opened (drew quarter_draws))).
Proof.
  exact (count_sampled_wire_format (FS := repr_examples)
           (StatsdClient.__init__ None None (Some "app")) "hits"
           (VNum (PyInt 1)) (PyFloat 0.5) quarter_draws eq_refl).
Defined.

(** X4 at the float [nan]. *)
Lemma count_nan_rate_sends_nothing_witness :
  StatsdClient.count (StatsdClient.__init__ None None None)
    (PyList [PyStr "a"; PyStr "b"]) (VNum (PyInt 1)) (Some (PyFloat nan))
    quarter_draws
  = (Ok tt, opened quarter_draws).
Proof.
  exact (proj2 (count_nan_rate_sends_nothing (FS := repr_examples)
                  (StatsdClient.__init__ None None None) ["a"; "b"]
                  (VNum (PyInt 1)) nan quarter_draws eq_refl)).
Defined.

(** X5 at a two-key mapping and a rate of [0.5]. *)
Lemma sample_all_or_nothing_witness :
  exists d',
    fst (StatsdClient.sample [("a", "1|c"); ("b", "1|c")] (PyFloat 0.5)
           quarter_draws) = Ok d'
    /\ (d' = [] \/ dict_keys d' = ["a"; "b"])
    /\ (snd (StatsdClient.sample [("a", "1|c"); ("b", "1|c")] (PyFloat 0.5)
               quarter_draws) = quarter_draws
        \/ snd (StatsdClient.sample [("a", "1|c"); ("b", "1|c")] (PyFloat 0.5)
                  quarter_draws) = drew quarter_draws).
Proof.
  apply (sample_all_or_nothing (FS := repr_examples)
           [("a", "1|c"); ("b", "1|c")] (PyFloat 0.5) quarter_draws).
  unfold dict_wf. simpl. repeat constructor; simpl; intuition discriminate.
Defined.

(** The lemma on rates of at most [0], at rate [0] and a draw of [0.25]. *)
Lemma sample_rate_le_0_positive_draw_witness :
  StatsdClient.sample [("example.sample3", "3")] (PyInt 0) quarter_draws
  = (Ok [], drew quarter_draws).
Proof.
  exact (sample_rate_le_0_positive_draw (FS := repr_examples)
           [("example.sample3", "3")] (PyInt 0) quarter_draws eq_refl eq_refl).
Defined.

(** X8 at the world of a fresh import. *)
Lemma configure_replaces_reset_restores_witness :
  _client (snd (metrics.configure (Some "b.example") None (Some "two")
                  (snd (metrics.configure (Some "a.example") (Some 9125%Z)
                          (Some "one") quarter_draws))))
  = StatsdClientObj (Build_client ("b.example", 8125%Z) "two.")
  /\ metrics.resetclient quarter_draws = (Ok tt, quarter_draws)
  /\ snd (metrics.resetclient
            (snd (metrics.configure (Some "a.example") (Some 9125%Z)
                    (Some "one") quarter_draws)))
     = logged ("INFO", "Reconfiguring metrics: a.example:9125/one")
         quarter_draws.
Proof.
  exact (configure_replaces_reset_restores (Some "a.example")
           (Some "b.example") (Some 9125%Z) None (Some "one") (Some "two")
           quarter_draws eq_refl).
Defined.

(** X9 at the function [f], before any [configure]. *)
Lemma timed_unconfigured_is_the_function_witness :
  call (metrics.timed (Some "mymetrics") add_one) 3 quarter_draws
  = (Ok 4, quarter_draws).
Proof.
  exact (timed_unconfigured_is_the_function (FS := repr_examples)
           (Some "mymetrics") add_one 3 quarter_draws eq_refl).
Defined.

(** X10 at the function [f], after [configure(prefix='svc')]. *)
Lemma timed_configured_times_the_call_witness :
  call (metrics.timed (Some "mymetrics") add_one) 3 svc_world
  = (Ok 4,
     sent [Datagram (encode_utf8 "svc.mymetrics.f:1250.0|ms")
             ("localhost", 8125%Z)]
       (opened (ticked (ticked svc_world)))).
Proof.
  exact (timed_configured_times_the_call (FS := repr_examples)
           (Build_client ("localhost", 8125%Z) "svc.") (Some "mymetrics")
           add_one 3 svc_world eq_refl).
Defined.

(** X11 at the function [f], decorated as [timed('outer')(timed()(f))]. *)
Lemma timed_twice_records_wrapped_witness :
  wire (snd (call (metrics.timed (Some "outer") (metrics.timed None add_one))
               3 svc_world))
  = [Datagram (encode_utf8 "svc.f:0.0|ms") ("localhost", 8125%Z);
     Datagram (encode_utf8 "svc.outer.wrapped:1250.0|ms")
       ("localhost", 8125%Z)].
Proof.
  rewrite (proj2 (timed_twice_records_wrapped (FS := repr_examples)
                    (Build_client ("localhost", 8125%Z) "svc.") None
                    (Some "outer") add_one 3 svc_world
                    (ticked (ticked svc_world)) 4 eq_refl eq_refl)).
  reflexivity.
Defined.

Lemma example_object_methods (m : pystr) :
  In m ["m1"; "m2"] -> getattr example_object m <> None.
Proof.
  intros [<- | [<- | []]]; discriminate.
Qed.

Lemma example_methods_distinct : NoDup ["m1"; "m2"].
Proof.
  repeat constructor; simpl; intuition discriminate.
Qed.

(** X12 at the doctest's object, both methods, prefix ['mymetrics']. *)
Lemma time_methods_patches_the_named_witness :
  exists obj',
    metrics.time_methods example_object ["m1"; "m2"] (Some "mymetrics")
    = (Ok tt, obj')
    /\ (forall m f, In m ["m1"; "m2"] -> getattr example_object m = Some f ->
          getattr obj' m
          = Some (Build_pyfunc "wrapped"
                    (fun args =>
                       metrics.timeit
                         (PyStr (patched_metric_name (Some "mymetrics")
                                   (__name__ f)))
                         (call f) args)))
    /\ (forall m, ~ In m ["m1"; "m2"] ->
          getattr obj' m = getattr example_object m).
Proof.
  exact (time_methods_patches_the_named (FS := repr_examples) example_object
           ["m1"; "m2"] (Some "mymetrics") example_methods_distinct
           example_object_methods).
Defined.

(** X13 at the doctest's object and the names [m1], [m3], [m2]. *)
Lemma time_methods_missing_attribute_witness :
  exists obj',
    metrics.time_methods example_object (["m1"] ++ "m3" :: ["m2"])%list None
    = (Raise (Exception "AttributeError"), obj')
    /\ (forall m f, In m ["m1"] -> getattr example_object m = Some f ->
          getattr obj' m = Some (metrics.timed (Some (key_prefix None)) f))
    /\ (forall m, ~ In m ["m1"] -> getattr obj' m = getattr example_object m).
Proof.
  apply (time_methods_missing_attribute (FS := repr_examples) example_object
           ["m1"] ["m2"] "m3" None).
  - repeat constructor. intros [].
  - intros m [<- | []]. discriminate.
  - reflexivity.
Defined.

(** X14 at the doctest's object: [c.m2('ok')] after patching. *)
Lemma time_methods_unconfigured_is_transparent_witness :
  exists g,
    getattr (snd (metrics.time_methods example_object ["m1"; "m2"] None)) "m2"
    = Some g
    /\ call g [PyStr "ok"] quarter_draws = (Ok (PyStr "ok"), quarter_draws).
Proof.
  apply (time_methods_unconfigured_is_transparent (FS := repr_examples)
           example_object ["m1"; "m2"] None "m2"
           (Build_pyfunc "m2" (fun args => ret (hd PyNone args)))
           [PyStr "ok"] quarter_draws example_methods_distinct
           example_object_methods).
  - simpl. auto.
  - reflexivity.
  - reflexivity.
Defined.

(** X15 at the function [f]: the clock reads [1.25], then [2.5]. *)
Lemma timeit_measures_between_two_readings_witness :
  statsdclient.timeit (call add_one) 3 quarter_draws
  = (Ok (4, 1.25%float), ticked (ticked quarter_draws)).
Proof.
  exact (proj1 (timeit_measures_between_two_readings (call add_one) 3
                  quarter_draws (ticked quarter_draws) 4 eq_refl eq_refl
                  eq_refl)).
Defined.

(** X16 at the metric [None]. *)
Lemma timeit_non_string_metric_loses_result_witness :
  StatsdClient.timeit (StatsdClient.__init__ None None None) PyNone
    (call add_one) 3 quarter_draws
  = (Raise TypeError, ticked (ticked quarter_draws)).
Proof.
  exact (timeit_non_string_metric_loses_result (FS := repr_examples)
           (StatsdClient.__init__ None None None) PyNone (call add_one) 3
           quarter_draws (ticked quarter_draws) 4 eq_refl eq_refl).
Defined.
